(** * wysp: the audio capture shim ([src/vendor/audio_capture.c])

    A shallow embedding of the capture session and of its five entry points
    plus the backend data callback, followed by the properties of the
    natural-language specification.

    Conventions of the embedding.
    - [int] and [ma_uint32] are 32 bits wide, [size_t] is 64 bits wide.
      Integers are carried as [Z]; every place where C converts or wraps is
      written out with [to_uint32] and [to_int].
    - A C array reached through a pointer is a function from index to
      element.  The session buffer is an allocation of [MAX_SAMPLES] slots;
      a [memcpy] that leaves it is undefined behaviour and is reported as
      [Fault].
    - A nullable pointer is an [option].
    - [miniaudio.h] is not part of the sources: the device type and the
      device calls are parameters of the development. *)

From Stdlib Require Import ZArith List Bool Lia.
Import ListNotations.
Local Open Scope Z_scope.

(** ** Machine integers *)

Module CInt.

Definition UINT32_MOD : Z := 2 ^ 32.
Definition INT_MAX : Z := 2 ^ 31 - 1.
Definition INT_MIN : Z := - 2 ^ 31.

(** Conversion of a value to [unsigned int]. *)
Definition to_uint32 (x : Z) : Z := x mod UINT32_MOD.

(** Conversion of a value to [int] (two's complement). *)
Definition to_int (x : Z) : Z := (x + 2 ^ 31) mod UINT32_MOD - 2 ^ 31.

(** [a + b] computed in [unsigned int]. *)
Definition uint32_add (a b : Z) : Z := to_uint32 (a + b).

Definition is_uint32 (x : Z) : Prop := 0 <= x < UINT32_MOD.
Definition is_int (x : Z) : Prop := INT_MIN <= x <= INT_MAX.

End CInt.

Import CInt.

(** [#define MAX_SAMPLES (16000 * 60)] *)
Definition MAX_SAMPLES : Z := 16000 * 60.

(** ** Results *)

(** Modelled from the spec: [ma_result] of the absent [miniaudio.h]; the
    source only ever compares it with [MA_SUCCESS]. *)
Inductive ma_result : Type :=
| MA_SUCCESS
| MA_ERROR.

(** What running a piece of C gives: a value, or undefined behaviour. *)
Inductive outcome (A : Type) : Type :=
| Done (a : A)
| Fault.

Arguments Done {A} a.
Arguments Fault {A}.

(** What [audio_capture_destroy] hands back to the system. *)
Inductive released (D : Type) : Type :=
| DeviceUninit (d : D)
| BufferFreed
| SessionFreed.

Arguments DeviceUninit {D} d.
Arguments BufferFreed {D}.
Arguments SessionFreed {D}.

(** Modelled from the spec: the sample formats of the backend. *)
Inductive ma_format : Type :=
| ma_format_s16
| ma_format_f32.

(** Modelled from the spec: the fields of [ma_device_config] that
    [audio_capture_create] sets. *)
Record ma_device_config : Type := {
  capture_format : ma_format;
  capture_channels : Z;
  sampleRate : Z
}.

Section Capture.

(** A [float]; the code only ever moves samples with [memcpy]. *)
Context {sample : Type}.

(** Modelled from the spec: the opaque [ma_device] of the backend. *)
Context {ma_device : Type}.

Definition array : Type := Z -> sample.

(** [memcpy(dst + off, src, n * sizeof(float))] *)
Definition memcpy (dst : array) (off : Z) (src : array) (n : Z) : array :=
  fun i => if (off <=? i) && (i <? off + n) then src (i - off) else dst i.

(** The [n] elements of [a] from index [off] on. *)
Definition read (a : array) (off : Z) (n : nat) : list sample :=
  map (fun k => a (off + Z.of_nat k)) (seq 0 n).

(** [struct AudioCapture] *)
Record AudioCapture : Type := {
  device : ma_device;
  buffer : array;
  sample_count : Z;
  callback_count : Z;
  recording : Z
}.

Definition set_device (cap : AudioCapture) (d : ma_device) : AudioCapture :=
  {| device := d; buffer := buffer cap; sample_count := sample_count cap;
     callback_count := callback_count cap; recording := recording cap |}.

Definition set_recording (cap : AudioCapture) (r : Z) : AudioCapture :=
  {| device := device cap; buffer := buffer cap;
     sample_count := sample_count cap;
     callback_count := callback_count cap; recording := r |}.

(** [sample_count = 0; callback_count = 0; recording = 1;] *)
Definition arm (cap : AudioCapture) : AudioCapture :=
  {| device := device cap; buffer := buffer cap; sample_count := 0;
     callback_count := 0; recording := 1 |}.

(** The backend.  A device call receives the device, and the device
    carries [pUserData], the session: the call is a function of the
    session as it stands when the call is made. *)
Variable ma_device_init : ma_device_config -> ma_result * ma_device.
Variable ma_device_start : AudioCapture -> ma_result * ma_device.
Variable ma_device_stop : AudioCapture -> ma_result * ma_device.

(** *** [data_callback] *)

(** The guard [cap->sample_count + frameCount < MAX_SAMPLES]: [int] plus
    [ma_uint32] is computed and compared in [unsigned int]. *)
Definition accepts (cap : AudioCapture) (frameCount : Z) : bool :=
  uint32_add (to_uint32 (sample_count cap)) frameCount
    <? to_uint32 MAX_SAMPLES.

(** The destination [cap->buffer + off .. + n] lies in the allocation. *)
Definition in_buffer (off n : Z) : bool :=
  (0 <=? off) && (0 <=? n) && (off + n <=? MAX_SAMPLES).

(** [cap->sample_count += frameCount] is the unsigned sum converted back to
    [int]; [cap->callback_count++] is an [int] increment, which wraps at
    [INT_MAX] here as it does on two's complement targets. *)
Definition data_callback (pUserData : option AudioCapture)
    (pInput : option array) (frameCount : Z)
  : outcome (option AudioCapture) :=
  match pUserData with
  | None => Done None
  | Some cap =>
    if recording cap =? 0 then Done (Some cap)
    else
      match pInput with
      | None => Done (Some cap)
      | Some input =>
        if accepts cap frameCount then
          if in_buffer (sample_count cap) frameCount then
            Done (Some
              {| device := device cap;
                 buffer := memcpy (buffer cap) (sample_count cap)
                                  input frameCount;
                 sample_count :=
                   to_int (uint32_add (to_uint32 (sample_count cap))
                                      frameCount);
                 callback_count := to_int (callback_count cap + 1);
                 recording := recording cap |})
          else Fault
        else Done (Some cap)
      end
  end.

(** *** [audio_capture_create] *)

Definition capture_config : ma_device_config :=
  {| capture_format := ma_format_f32; capture_channels := 1;
     sampleRate := 16000 |}.

(** [malloc_cap] tells whether the session record could be allocated,
    [malloc_buffer] is the fresh buffer (contents indeterminate) or
    [None]. *)
Definition audio_capture_create (malloc_cap : bool)
    (malloc_buffer : option array) : option AudioCapture :=
  if malloc_cap then
    match malloc_buffer with
    | None => None
    | Some fresh =>
      match ma_device_init capture_config with
      | (MA_SUCCESS, d) =>
        Some {| device := d; buffer := fresh; sample_count := 0;
                callback_count := 0; recording := 0 |}
      | (MA_ERROR, _) => None
      end
    end
  else None.

(** *** [audio_capture_start] *)

Definition audio_capture_start (cap : option AudioCapture)
  : Z * option AudioCapture :=
  match cap with
  | None => (-1, None)
  | Some c =>
    let armed := arm c in
    match ma_device_start armed with
    | (MA_SUCCESS, d) => (0, Some (set_device armed d))
    | (MA_ERROR, d) => (-1, Some (set_recording (set_device armed d) 0))
    end
  end.

(** *** [audio_capture_stop] *)

(** The source range [cap->buffer .. + n] lies in the allocation;
    [n] is an [int] converted to [size_t], so a negative [n] is a huge
    length. *)
Definition from_buffer (n : Z) : bool :=
  (0 <=? n) && (n <=? MAX_SAMPLES).

Definition audio_capture_stop (cap : option AudioCapture)
    (out : option array) (max_samples : Z)
  : outcome (Z * option AudioCapture * option array) :=
  match cap with
  | None => Done (0, None, out)
  | Some c =>
    let c1 := set_recording c 0 in
    let c2 := set_device c1 (snd (ma_device_stop c1)) in
    let count := sample_count c2 in
    match out with
    | None => Done (count, Some c2, None)
    | Some o =>
      if 0 <? max_samples then
        let to_copy := if count <? max_samples then count else max_samples in
        if from_buffer to_copy then
          Done (count, Some c2, Some (memcpy o 0 (buffer c2) to_copy))
        else Fault
      else Done (count, Some c2, Some o)
    end
  end.

(** *** [audio_capture_get_callback_count] *)

Definition audio_capture_get_callback_count (cap : option AudioCapture)
  : Z :=
  match cap with
  | Some c => callback_count c
  | None => 0
  end.

(** *** [audio_capture_destroy] *)

(** The session that is left, and what was released, in order. *)
Definition audio_capture_destroy (cap : option AudioCapture)
  : option AudioCapture * list (released ma_device) :=
  match cap with
  | None => (None, [])
  | Some c => (None, [DeviceUninit (device c); BufferFreed; SessionFreed])
  end.

End Capture.

Arguments array : clear implicits.
Arguments AudioCapture : clear implicits.

(** ** Histories of a session *)

(** The calls that can reach a session while its handle is valid; the
    backend's [dataAvailable] is [data_callback].
    [audio_capture_destroy] is not among them: it takes the pointer by
    value and frees what it points to, so the caller's handle dangles
    afterwards and no call may follow.  It ends a history and is described
    by [audio_capture_destroy] alone. *)
Inductive op (sample : Type) : Type :=
| Start
| Stop (out : option (array sample)) (max_samples : Z)
| DataAvailable (pInput : option (array sample)) (frameCount : Z)
| GetCallbackCount.

Arguments Start {sample}.
Arguments Stop {sample} out max_samples.
Arguments DataAvailable {sample} pInput frameCount.
Arguments GetCallbackCount {sample}.

Section Histories.

Context {sample ma_device : Type}.
Variable ma_device_start :
  AudioCapture sample ma_device -> ma_result * ma_device.
Variable ma_device_stop :
  AudioCapture sample ma_device -> ma_result * ma_device.

Let session : Type := option (AudioCapture sample ma_device).

Definition apply_op (o : op sample) (s : session) : outcome session :=
  match o with
  | Start => Done (snd (audio_capture_start ma_device_start s))
  | Stop out max_samples =>
    match audio_capture_stop ma_device_stop s out max_samples with
    | Done (_, s', _) => Done s'
    | Fault => Fault
    end
  | DataAvailable pInput frameCount => data_callback s pInput frameCount
  | GetCallbackCount => Done s
  end.

Fixpoint run (ops : list (op sample)) (s : session) : outcome session :=
  match ops with
  | [] => Done s
  | o :: rest =>
    match apply_op o s with
    | Done s' => run rest s'
    | Fault => Fault
    end
  end.

(** Present batches, one [dataAvailable] each. *)
Definition deliveries (batches : list (array sample * Z))
  : list (op sample) :=
  map (fun b => DataAvailable (Some (fst b)) (snd b)) batches.

Definition total_frames (batches : list (array sample * Z)) : Z :=
  fold_right (fun b acc => snd b + acc) 0 batches.

Definition delivered_frames (batches : list (array sample * Z))
  : list sample :=
  concat (map (fun b => read (fst b) 0 (Z.to_nat (snd b))) batches).

(** What every session built by the interface satisfies. *)
Definition session_inv (cap : AudioCapture sample ma_device) : Prop :=
  0 <= sample_count cap < MAX_SAMPLES.

(** The invariant, lifted to handles: a null handle has nothing to
    break. *)
Definition handle_inv (s : option (AudioCapture sample ma_device)) : Prop :=
  match s with
  | Some cap => session_inv cap
  | None => True
  end.

End Histories.

(** ** A concrete backend and concrete sessions

    Samples are their bit patterns; the device counts the start requests it
    has seen and refuses the first one. *)

Module Demo.

Definition dev_init (_ : ma_device_config) : ma_result * nat :=
  (MA_SUCCESS, 0%nat).

Definition dev_start (cap : AudioCapture Z nat) : ma_result * nat :=
  match device cap with
  | O => (MA_ERROR, 1%nat)
  | S n => (MA_SUCCESS, S (S n))
  end.

Definition dev_stop (cap : AudioCapture Z nat) : ma_result * nat :=
  (MA_SUCCESS, device cap).

Definition silence : array Z := fun _ => 0.
Definition ramp : array Z := fun i => i + 1.

(** A session in the middle of a recording. *)
Definition busy : AudioCapture Z nat :=
  {| device := 2%nat; buffer := silence; sample_count := 1000;
     callback_count := 2; recording := 1 |}.

(** A recording session one batch of 480 frames away from a full
    buffer. *)
Definition nearly_full : AudioCapture Z nat :=
  {| device := 2%nat; buffer := silence; sample_count := MAX_SAMPLES - 480;
     callback_count := 1999; recording := 1 |}.

(** A stopped session holding five samples. *)
Definition idle : AudioCapture Z nat :=
  {| device := 2%nat; buffer := ramp; sample_count := 5;
     callback_count := 1; recording := 0 |}.

(** A session whose device has never been asked to start. *)
Definition fresh : AudioCapture Z nat :=
  {| device := 0%nat; buffer := ramp; sample_count := 5;
     callback_count := 1; recording := 0 |}.

(** A history: a refused start, an accepted one, a batch, a null
    delivery, a query, a stop. *)
Definition history : list (op Z) :=
  [Start; Start; DataAvailable (Some ramp) 480; DataAvailable None 480;
   GetCallbackCount; Stop None 0].

Definition after_history : AudioCapture Z nat :=
  {| device := 2%nat; buffer := memcpy silence 0 ramp 480;
     sample_count := 480; callback_count := 1; recording := 0 |}.

(** Three batches, seven frames. *)
Definition batches : list (array Z * Z) :=
  [(ramp, 3); (silence, 2); (ramp, 2)].

(** [busy] after one more batch of 480 frames. *)
Definition busy_after : AudioCapture Z nat :=
  {| device := 2%nat; buffer := memcpy silence 1000 ramp 480;
     sample_count := 1480; callback_count := 3; recording := 1 |}.

(** Callbacks that arrive although nothing is being recorded; the last one
    carries the largest frame count there is. *)
Definition late_callbacks : list (op Z) :=
  [DataAvailable (Some ramp) 10; DataAvailable None 3;
   DataAvailable (Some ramp) 4294967295].

End Demo.

(** ** Well-formed sessions, kinds of calls *)

Section Wellformed.

Context {sample ma_device : Type}.

(** Everything the fields of a session built by the interface satisfy: the
    count is inside the buffer, the flag is 0 or 1, the callback counter is
    an [int]. *)
Definition session_wf (cap : AudioCapture sample ma_device) : Prop :=
  session_inv cap /\
  (recording cap = 0 \/ recording cap = 1) /\
  is_int (callback_count cap).

Definition handle_wf (s : option (AudioCapture sample ma_device)) : Prop :=
  match s with
  | Some cap => session_wf cap
  | None => True
  end.

(** A call whose frame count, if it has one, is too small to wrap the
    guard of [data_callback] from any count inside the buffer. *)
Definition no_wrap_op (o : op sample) : Prop :=
  match o with
  | DataAvailable _ frameCount =>
    0 <= frameCount <= UINT32_MOD - MAX_SAMPLES
  | _ => True
  end.

Definition is_delivery (o : op sample) : Prop :=
  match o with
  | DataAvailable _ _ => True
  | _ => False
  end.

End Wellformed.

(** ** Arithmetic of the conversions *)

Lemma to_uint32_small (x : Z) : is_uint32 x -> to_uint32 x = x.
Proof. unfold is_uint32, to_uint32. intros H. now apply Z.mod_small. Qed.

Lemma to_uint32_range (x : Z) : is_uint32 (to_uint32 x).
Proof.
  unfold is_uint32, to_uint32, UINT32_MOD.
  apply Z.mod_pos_bound. reflexivity.
Qed.

Lemma to_int_small (x : Z) : is_int x -> to_int x = x.
Proof.
  unfold is_int, to_int, INT_MIN, INT_MAX, UINT32_MOD. intros H.
  rewrite Z.mod_small; lia.
Qed.

Lemma uint32_add_to_uint32 (a b : Z) :
  uint32_add (to_uint32 a) b = to_uint32 (a + b).
Proof.
  unfold uint32_add, to_uint32, UINT32_MOD.
  apply Z.add_mod_idemp_l. discriminate.
Qed.

Lemma to_uint32_MAX_SAMPLES : to_uint32 MAX_SAMPLES = MAX_SAMPLES.
Proof. reflexivity. Qed.

Lemma MAX_SAMPLES_value : MAX_SAMPLES = 960000.
Proof. reflexivity. Qed.

(** ** Arrays *)

Section Arrays.

Context {sample : Type}.
Implicit Types a b src : array sample.

Lemma read_length a off n : length (read a off n) = n.
Proof. unfold read. now rewrite length_map, length_seq. Qed.

Lemma read_ext a b off n :
  (forall i, off <= i < off + Z.of_nat n -> a i = b i) ->
  read a off n = read b off n.
Proof.
  intros H. unfold read. apply map_ext_in. intros k Hk.
  apply in_seq in Hk. apply H. lia.
Qed.

Lemma map_seq_from {B : Type} (f : nat -> B) (n m : nat) :
  map f (seq n m) = map (fun k => f (n + k)%nat) (seq 0 m).
Proof.
  revert n f. induction m as [|m IH]; intros n f; [reflexivity|].
  simpl. rewrite Nat.add_0_r. f_equal.
  rewrite (IH (S n)), (IH 1%nat). apply map_ext. intros k.
  f_equal. lia.
Qed.

Lemma read_app a off n m :
  read a off (n + m) = read a off n ++ read a (off + Z.of_nat n) m.
Proof.
  unfold read. rewrite seq_app, map_app. f_equal.
  simpl. rewrite map_seq_from.
  apply map_ext. intros k. f_equal. lia.
Qed.

Lemma memcpy_inside a off src n i :
  off <= i < off + n -> memcpy a off src n i = src (i - off).
Proof.
  intros H. unfold memcpy.
  replace (off <=? i) with true by (symmetry; apply Z.leb_le; lia).
  replace (i <? off + n) with true by (symmetry; apply Z.ltb_lt; lia).
  reflexivity.
Qed.

Lemma memcpy_outside a off src n i :
  i < off \/ off + n <= i -> memcpy a off src n i = a i.
Proof.
  intros H. unfold memcpy.
  destruct (off <=? i) eqn:E1; [|reflexivity].
  destruct (i <? off + n) eqn:E2; [|reflexivity].
  apply Z.leb_le in E1. apply Z.ltb_lt in E2. lia.
Qed.

Lemma read_memcpy a off src n :
  0 <= n ->
  read (memcpy a off src n) off (Z.to_nat n) = read src 0 (Z.to_nat n).
Proof.
  intros Hn. unfold read. apply map_ext_in. intros k Hk.
  apply in_seq in Hk. rewrite memcpy_inside by lia. f_equal. lia.
Qed.

End Arrays.

(** ** The data callback *)

Section DataCallback.

Context {sample ma_device : Type}.
Implicit Types cap : AudioCapture sample ma_device.
Implicit Types input : array sample.

(** Without wrap-around the guard is the comparison one reads in the
    source. *)
Lemma accepts_no_wrap cap frameCount :
  0 <= sample_count cap -> 0 <= frameCount ->
  sample_count cap + frameCount < UINT32_MOD ->
  accepts cap frameCount = (sample_count cap + frameCount <? MAX_SAMPLES).
Proof.
  intros Hs Hf Hw. unfold accepts.
  rewrite uint32_add_to_uint32, to_uint32_MAX_SAMPLES.
  rewrite to_uint32_small by (unfold is_uint32; lia).
  reflexivity.
Qed.

(** An accepted batch that fits: the state the callback leaves. *)
Lemma data_callback_accepted cap input frameCount :
  0 <= sample_count cap -> recording cap <> 0 -> 0 <= frameCount ->
  sample_count cap + frameCount < MAX_SAMPLES ->
  data_callback (Some cap) (Some input) frameCount =
  Done (Some {| device := device cap;
                buffer := memcpy (buffer cap) (sample_count cap)
                                 input frameCount;
                sample_count := sample_count cap + frameCount;
                callback_count := to_int (callback_count cap + 1);
                recording := recording cap |}).
Proof.
  intros Hs Hr Hf Hfit. unfold data_callback.
  apply Z.eqb_neq in Hr. rewrite Hr.
  assert (Hw : sample_count cap + frameCount < UINT32_MOD)
    by (unfold UINT32_MOD; rewrite MAX_SAMPLES_value in Hfit; lia).
  rewrite accepts_no_wrap by assumption.
  replace (sample_count cap + frameCount <? MAX_SAMPLES) with true
    by (symmetry; now apply Z.ltb_lt).
  unfold in_buffer.
  replace (0 <=? sample_count cap) with true
    by (symmetry; now apply Z.leb_le).
  replace (0 <=? frameCount) with true by (symmetry; now apply Z.leb_le).
  replace (sample_count cap + frameCount <=? MAX_SAMPLES) with true
    by (symmetry; apply Z.leb_le; lia).
  simpl. rewrite uint32_add_to_uint32.
  rewrite to_uint32_small by (unfold is_uint32; lia).
  rewrite to_int_small
    by (unfold is_int, INT_MIN, INT_MAX;
        rewrite MAX_SAMPLES_value in Hfit; lia).
  reflexivity.
Qed.

(** A batch that does not fit, and whose frame count does not wrap the
    guard, is dropped whole. *)
Lemma data_callback_dropped cap pInput frameCount :
  0 <= sample_count cap -> 0 <= frameCount ->
  MAX_SAMPLES <= sample_count cap + frameCount < UINT32_MOD ->
  data_callback (Some cap) pInput frameCount = Done (Some cap).
Proof.
  intros Hs Hf [Hfull Hw]. unfold data_callback.
  destruct (recording cap =? 0); [reflexivity|].
  destruct pInput as [input|]; [|reflexivity].
  rewrite accepts_no_wrap by assumption.
  replace (sample_count cap + frameCount <? MAX_SAMPLES) with false
    by (symmetry; apply Z.ltb_ge; lia).
  reflexivity.
Qed.

(** A frame count large enough to wrap the unsigned sum always passes the
    guard: the wrapped sum is below [sample_count]. *)
Lemma accepts_wrapped cap frameCount :
  session_inv cap -> is_uint32 frameCount ->
  UINT32_MOD <= sample_count cap + frameCount ->
  accepts cap frameCount = true.
Proof.
  intros [Hlo Hhi] [Hf0 Hf1] Hwrap. unfold accepts.
  rewrite uint32_add_to_uint32, to_uint32_MAX_SAMPLES.
  apply Z.ltb_lt. unfold to_uint32.
  replace (sample_count cap + frameCount)
    with (sample_count cap + frameCount - UINT32_MOD + 1 * UINT32_MOD)
    by ring.
  rewrite Z.mod_add by discriminate.
  rewrite MAX_SAMPLES_value in *. unfold UINT32_MOD in *.
  rewrite Z.mod_small; lia.
Qed.

(** Whatever the callback leaves satisfies the session invariant. *)
Lemma data_callback_inv cap pInput frameCount cap' :
  session_inv cap ->
  data_callback (Some cap) pInput frameCount = Done (Some cap') ->
  session_inv cap'.
Proof.
  intros Hinv. unfold data_callback.
  destruct (recording cap =? 0); [intros [= <-]; exact Hinv|].
  destruct pInput as [input|]; [|intros [= <-]; exact Hinv].
  destruct (accepts cap frameCount) eqn:Hacc; [|intros [= <-]; exact Hinv].
  destruct (in_buffer _ _); [|discriminate].
  intros [= <-]. unfold session_inv. simpl.
  unfold accepts in Hacc. apply Z.ltb_lt in Hacc.
  rewrite to_uint32_MAX_SAMPLES in Hacc.
  pose proof (to_uint32_range
                (to_uint32 (sample_count cap) + frameCount)) as Hrange.
  unfold uint32_add in *. unfold is_uint32 in Hrange.
  rewrite to_int_small; [lia|].
  unfold is_int, INT_MIN, INT_MAX.
  rewrite MAX_SAMPLES_value in Hacc. lia.
Qed.

Lemma data_callback_null pInput frameCount :
  data_callback (@None (AudioCapture sample ma_device)) pInput frameCount
  = Done None.
Proof. reflexivity. Qed.

(** What the guard alone secures: the count that the code stores for a
    batch it accepts is inside the buffer, whatever the session and the
    frame count, wrapped sum or not. *)
Lemma accepted_count_in_buffer cap frameCount :
  accepts cap frameCount = true ->
  0 <= to_int (uint32_add (to_uint32 (sample_count cap)) frameCount)
    < MAX_SAMPLES.
Proof.
  unfold accepts. intros Hacc. apply Z.ltb_lt in Hacc.
  rewrite to_uint32_MAX_SAMPLES in Hacc.
  pose proof (to_uint32_range
                (to_uint32 (sample_count cap) + frameCount)) as Hrange.
  unfold uint32_add in *. unfold is_uint32 in Hrange.
  rewrite to_int_small; [lia|].
  unfold is_int, INT_MIN, INT_MAX.
  rewrite MAX_SAMPLES_value in Hacc. lia.
Qed.

(** With a frame count that cannot wrap, the callback returns. *)
Lemma data_callback_no_wrap_done cap pInput frameCount :
  session_inv cap ->
  0 <= frameCount <= UINT32_MOD - MAX_SAMPLES ->
  exists s', data_callback (Some cap) pInput frameCount = Done s'.
Proof.
  intros [Hlo Hhi] [Hf0 Hf1].
  destruct (Z.eq_dec (recording cap) 0) as [Hr|Hr].
  - unfold data_callback. apply Z.eqb_eq in Hr. rewrite Hr.
    eexists. reflexivity.
  - destruct pInput as [input|].
    + destruct (Z_lt_le_dec (sample_count cap + frameCount) MAX_SAMPLES)
        as [Hfit|Hfull].
      * eexists. apply data_callback_accepted; assumption.
      * eexists. apply data_callback_dropped; try assumption. lia.
    + unfold data_callback. destruct (recording cap =? 0);
        eexists; reflexivity.
Qed.


End DataCallback.

(** ** Properties of [data_callback] *)

Section DataCallbackClaims.

Context {sample ma_device : Type}.
Implicit Types cap : AudioCapture sample ma_device.
Implicit Types input : array sample.

(** C1, as the code has it.  For a session that satisfies its invariant
    and is recording, with a callback counter that is an [int] below
    [INT_MAX]: when [data_callback] receives a present input of
    [frameCount] samples and [sample_count + frameCount] is strictly
    below [MAX_SAMPLES] (960,000), the frames are written to the buffer
    from index [sample_count] on, nothing else in the buffer changes,
    [sample_count] advances by exactly [frameCount] and [callback_count]
    by exactly one. *)
Theorem data_callback_appends cap input frameCount :
  session_inv cap ->
  recording cap <> 0 ->
  INT_MIN <= callback_count cap < INT_MAX ->
  0 <= frameCount ->
  sample_count cap + frameCount < MAX_SAMPLES ->
  exists cap',
    data_callback (Some cap) (Some input) frameCount = Done (Some cap') /\
    read (buffer cap') (sample_count cap) (Z.to_nat frameCount)
      = read input 0 (Z.to_nat frameCount) /\
    (forall i, i < sample_count cap \/ sample_count cap + frameCount <= i ->
               buffer cap' i = buffer cap i) /\
    sample_count cap' = sample_count cap + frameCount /\
    callback_count cap' = callback_count cap + 1 /\
    recording cap' = recording cap /\
    device cap' = device cap.
Proof.
  intros [Hs _] Hr Hcc Hf Hfit.
  eexists. split.
  - apply data_callback_accepted; assumption.
  - simpl. repeat split.
    + now apply read_memcpy.
    + intros i Hi. now apply memcpy_outside.
    + apply to_int_small. unfold is_int. lia.
Qed.

(** C10.  A [data_callback] invocation with a null input leaves the whole
    session as it was, recording or not: no sample is stored and neither
    counter moves. *)
Theorem data_callback_null_input cap frameCount :
  data_callback (Some cap) None frameCount = Done (Some cap).
Proof.
  unfold data_callback. destruct (recording cap =? 0); reflexivity.
Qed.

End DataCallbackClaims.

(** C1 at a concrete session. *)
Lemma data_callback_appends_witness :
  exists cap',
    data_callback (Some Demo.busy) (Some Demo.ramp) 480 = Done (Some cap') /\
    read (buffer cap') 1000 480 = read Demo.ramp 0 480 /\
    (forall i, i < 1000 \/ 1480 <= i -> buffer cap' i = Demo.silence i) /\
    sample_count cap' = 1480 /\
    callback_count cap' = 3 /\
    recording cap' = 1 /\
    device cap' = 2%nat.
Proof.
  apply (data_callback_appends Demo.busy Demo.ramp 480).
  - unfold session_inv. simpl. rewrite MAX_SAMPLES_value. lia.
  - simpl. discriminate.
  - unfold INT_MIN, INT_MAX. simpl. lia.
  - lia.
  - simpl. rewrite MAX_SAMPLES_value. lia.
Defined.

(** C1 as the specification words it fails on the code: a batch that would
    fill the buffer exactly (here 959,520 + 480 = 960,000) is within the
    capacity, and [data_callback] drops it. *)
Lemma data_callback_full_batch_dropped :
  sample_count Demo.nearly_full + 480 = MAX_SAMPLES /\
  recording Demo.nearly_full <> 0 /\
  data_callback (Some Demo.nearly_full) (Some Demo.ramp) 480
    = Done (Some Demo.nearly_full) /\
  ~ exists cap',
      data_callback (Some Demo.nearly_full) (Some Demo.ramp) 480
        = Done (Some cap') /\
      sample_count cap' = sample_count Demo.nearly_full + 480.
Proof.
  split; [|split; [|split]].
  - reflexivity.
  - vm_compute. discriminate.
  - reflexivity.
  - intros (cap' & Hrun & Hcount).
    change (Done (Some Demo.nearly_full) = Done (Some cap')) in Hrun.
    injection Hrun as <-. vm_compute in Hcount. discriminate.
Qed.

(** C2 at the input where the code departs from it.  A recording session
    holds 1,000 samples and the backend hands over 4,294,967,295 frames: the
    batch is far over the capacity, yet the sum wraps in [unsigned int] to
    999, the guard accepts the batch, [sample_count] would become 999, and
    the [memcpy] runs off the end of the buffer. *)
Theorem data_callback_wrapping_batch :
  is_uint32 4294967295 /\
  MAX_SAMPLES < sample_count Demo.busy + 4294967295 /\
  recording Demo.busy <> 0 /\
  accepts Demo.busy 4294967295 = true /\
  to_int (uint32_add (to_uint32 (sample_count Demo.busy)) 4294967295)
    = 999 /\
  in_buffer (sample_count Demo.busy) 4294967295 = false /\
  data_callback (Some Demo.busy) (Some Demo.ramp) 4294967295 = Fault /\
  data_callback (Some Demo.busy) (Some Demo.ramp) 4294967295
    <> Done (Some Demo.busy).
Proof.
  repeat split; try (vm_compute; congruence).
Qed.

(** ** The control calls *)

Section Control.

Context {sample ma_device : Type}.
Variable ma_device_init : ma_device_config -> ma_result * ma_device.
Variable ma_device_start :
  AudioCapture sample ma_device -> ma_result * ma_device.
Variable ma_device_stop :
  AudioCapture sample ma_device -> ma_result * ma_device.
Implicit Types cap : AudioCapture sample ma_device.
Implicit Types s : option (AudioCapture sample ma_device).
Implicit Types malloc_buffer out : option (array sample).

Local Abbreviation start := (audio_capture_start ma_device_start).
Local Abbreviation stop := (audio_capture_stop ma_device_stop).
Local Abbreviation create := (audio_capture_create ma_device_init).

Lemma zero_in_buffer : 0 <= 0 < MAX_SAMPLES.
Proof. rewrite MAX_SAMPLES_value. lia. Qed.

Lemma create_inv malloc_cap malloc_buffer :
  handle_inv (create malloc_cap malloc_buffer).
Proof.
  unfold audio_capture_create.
  destruct malloc_cap; [|exact I].
  destruct malloc_buffer as [fresh|]; [|exact I].
  destruct (ma_device_init capture_config) as [[|] d]; [|exact I].
  exact zero_in_buffer.
Qed.

Lemma start_inv s : handle_inv (snd (start s)).
Proof.
  destruct s as [cap|]; [|exact I].
  unfold audio_capture_start.
  destruct (ma_device_start (arm cap)) as [[|] d]; exact zero_in_buffer.
Qed.

(** The shape of every result of [audio_capture_stop] on a live
    session. *)
Lemma stop_shape cap out max_samples r :
  stop (Some cap) out max_samples = Done r ->
  exists out',
    r = (sample_count cap,
         Some (set_device (set_recording cap 0)
                          (snd (ma_device_stop (set_recording cap 0)))),
         out').
Proof.
  unfold audio_capture_stop. simpl.
  destruct out as [o|].
  - destruct (0 <? max_samples).
    + destruct (from_buffer _); [|discriminate].
      intros [= <-]. eexists. reflexivity.
    + intros [= <-]. eexists. reflexivity.
  - intros [= <-]. eexists. reflexivity.
Qed.

Lemma apply_op_inv o s s' :
  handle_inv s ->
  apply_op ma_device_start ma_device_stop o s = Done s' ->
  handle_inv s'.
Proof.
  intros Hinv. destruct o as [|out max_samples|pInput frameCount|]; simpl.
  - intros [= <-]. apply start_inv.
  - destruct s as [cap|].
    + destruct (stop (Some cap) out max_samples) as [r|] eqn:E;
        [|discriminate].
      apply stop_shape in E. destruct E as [out' ->].
      intros [= <-]. exact Hinv.
    + simpl. intros [= <-]. exact I.
  - destruct s as [cap|].
    + destruct s' as [cap'|]; [|intros _; exact I].
      apply data_callback_inv. exact Hinv.
    + rewrite data_callback_null. intros [= <-]. exact I.
  - intros [= <-]. exact Hinv.
Qed.

Lemma run_inv ops s s' :
  handle_inv s ->
  run ma_device_start ma_device_stop ops s = Done s' ->
  handle_inv s'.
Proof.
  revert s. induction ops as [|o rest IH]; intros s Hinv; simpl.
  - intros [= <-]. exact Hinv.
  - destruct (apply_op ma_device_start ma_device_stop o s) as [s1|] eqn:E;
      [|discriminate].
    apply IH. exact (apply_op_inv o s s1 Hinv E).
Qed.

(** *** [audio_capture_start] *)

(** C4.  On a live session, whatever state it is in,
    [audio_capture_start] first sets [sample_count] and [callback_count]
    to zero and [recording] to 1, and asks the backend to start with the
    session in that state.  When the backend agrees the call returns 0 and
    the session is recording; when it refuses, the call returns -1 with
    [recording] back at 0.  Either way the handle stays live, so start can
    be called again. *)
Theorem start_resets_then_starts_device cap :
  sample_count (arm cap) = 0 /\ callback_count (arm cap) = 0 /\
  recording (arm cap) = 1 /\
  exists cap',
    snd (start (Some cap)) = Some cap' /\
    device cap' = snd (ma_device_start (arm cap)) /\
    buffer cap' = buffer cap /\
    sample_count cap' = 0 /\ callback_count cap' = 0 /\
    match fst (ma_device_start (arm cap)) with
    | MA_SUCCESS => fst (start (Some cap)) = 0 /\ recording cap' = 1
    | MA_ERROR => fst (start (Some cap)) = -1 /\ recording cap' = 0
    end.
Proof.
  simpl. repeat split.
  unfold audio_capture_start.
  destruct (ma_device_start (arm cap)) as [[|] d]; simpl;
    eexists; repeat split.
Qed.

(** C9.  When the backend refuses to start, the session is left with
    [sample_count] and [callback_count] at zero: what had been captured
    before is no longer counted, and a stop that follows reports zero
    samples. *)
Theorem failed_start_clears_counters cap :
  fst (ma_device_start (arm cap)) = MA_ERROR ->
  exists cap',
    start (Some cap) = (-1, Some cap') /\
    sample_count cap' = 0 /\ callback_count cap' = 0 /\
    recording cap' = 0 /\
    audio_capture_get_callback_count (Some cap') = 0 /\
    exists cap'', stop (Some cap') None 0 = Done (0, Some cap'', None).
Proof.
  intros Hfail. unfold audio_capture_start.
  destruct (ma_device_start (arm cap)) as [[|] d]; [discriminate|].
  eexists. repeat split. eexists. reflexivity.
Qed.

(** *** [audio_capture_stop] *)

(** With the invariant, the copy of [audio_capture_stop] stays inside the
    session buffer. *)
Lemma stop_copy_from_buffer cap max_samples :
  session_inv cap -> 0 < max_samples ->
  from_buffer (if sample_count cap <? max_samples
               then sample_count cap else max_samples) = true.
Proof.
  intros [Hlo Hhi] Hmax. unfold from_buffer.
  destruct (sample_count cap <? max_samples) eqn:E.
  - apply andb_true_intro. split; apply Z.leb_le; lia.
  - apply Z.ltb_ge in E. apply andb_true_intro.
    split; apply Z.leb_le; lia.
Qed.

Lemma min_as_conditional (count max_samples : Z) :
  (if count <? max_samples then count else max_samples)
  = Z.min count max_samples.
Proof.
  destruct (count <? max_samples) eqn:E.
  - apply Z.ltb_lt in E. lia.
  - apply Z.ltb_ge in E. lia.
Qed.

(** Under the invariant [audio_capture_stop] never faults, and returns
    the count. *)
Lemma stop_returns_count_and_copies_aux cap out max_samples :
  session_inv cap ->
  exists out',
    stop (Some cap) out max_samples
    = Done (sample_count cap,
            Some (set_device (set_recording cap 0)
                    (snd (ma_device_stop (set_recording cap 0)))),
            out').
Proof.
  intros Hinv. unfold audio_capture_stop.
  destruct out as [o|]; [|eexists; reflexivity].
  destruct (0 <? max_samples) eqn:Hmax; [|eexists; reflexivity].
  apply Z.ltb_lt in Hmax. cbn [set_device set_recording sample_count].
  rewrite (stop_copy_from_buffer cap max_samples Hinv Hmax).
  eexists. reflexivity.
Qed.

(** C5.  On a live session that satisfies its invariant,
    [audio_capture_stop] sets [recording] to 0 and returns
    [sample_count], copy or no copy.  With a null output buffer, or a
    capacity that is not positive, the output is left as it was.  With a
    buffer and a positive capacity, the first
    [min (sample_count, max_samples)] samples of the session buffer are
    copied to the start of the output and the rest of the output is left
    as it was. *)
Theorem stop_returns_count_and_copies cap out max_samples :
  session_inv cap ->
  exists cap' out',
    stop (Some cap) out max_samples
      = Done (sample_count cap, Some cap', out') /\
    recording cap' = 0 /\
    sample_count cap' = sample_count cap /\
    buffer cap' = buffer cap /\
    (out = None -> out' = None) /\
    (max_samples <= 0 -> out' = out) /\
    (forall o, out = Some o -> 0 < max_samples ->
       exists o',
         out' = Some o' /\
         read o' 0 (Z.to_nat (Z.min (sample_count cap) max_samples))
           = read (buffer cap) 0
                  (Z.to_nat (Z.min (sample_count cap) max_samples)) /\
         (forall i, i < 0 \/ Z.min (sample_count cap) max_samples <= i ->
                    o' i = o i)).
Proof.
  intros Hinv. unfold audio_capture_stop.
  destruct out as [o|].
  - destruct (0 <? max_samples) eqn:Hmax.
    + apply Z.ltb_lt in Hmax. cbn [set_device set_recording sample_count].
      rewrite (stop_copy_from_buffer cap max_samples Hinv Hmax).
      do 2 eexists. split; [reflexivity|]. simpl.
      repeat split; try discriminate; try lia.
      intros o0 [= <-] _. eexists. split; [reflexivity|].
      rewrite min_as_conditional.
      destruct Hinv as [Hlo _]. split.
      * apply read_memcpy. lia.
      * intros i Hi. apply memcpy_outside. lia.
    + apply Z.ltb_ge in Hmax.
      do 2 eexists. split; [reflexivity|]. simpl.
      repeat split; try discriminate. intros o0 _ Hpos. lia.
  - do 2 eexists. split; [reflexivity|]. simpl.
    repeat split. intros o0 [=].
Qed.

(** C7.  On a live session that satisfies its invariant and is not
    recording, [audio_capture_stop] still asks the backend to stop the
    device and returns [sample_count]; it leaves a session on which every
    further stop returns that same count. *)
Theorem stop_again_returns_same_count cap out max_samples :
  session_inv cap ->
  recording cap = 0 ->
  exists cap' out',
    stop (Some cap) out max_samples
      = Done (sample_count cap, Some cap', out') /\
    device cap' = snd (ma_device_stop cap) /\
    recording cap' = 0 /\
    session_inv cap' /\
    forall out2 max_samples2,
    exists cap'' out'',
      stop (Some cap') out2 max_samples2
        = Done (sample_count cap, Some cap'', out'').
Proof.
  intros Hinv Hrec.
  assert (Hsame : set_recording cap 0 = cap)
    by (destruct cap; simpl in *; subst; reflexivity).
  destruct (stop_returns_count_and_copies_aux cap out max_samples Hinv)
    as (out' & Hstop).
  rewrite Hsame in Hstop.
  do 2 eexists. split; [exact Hstop|].
  split; [reflexivity|]. split; [exact Hrec|]. split; [exact Hinv|].
  intros out2 max_samples2.
  set (cap' := set_device cap (snd (ma_device_stop cap))).
  assert (Hinv' : session_inv cap') by exact Hinv.
  destruct (stop_returns_count_and_copies_aux cap' out2 max_samples2 Hinv')
    as (out'' & Hstop').
  do 2 eexists. exact Hstop'.
Qed.

(** *** Null handles *)

(** C8.  With a null handle, [audio_capture_stop] returns 0 and leaves the
    output buffer alone, [audio_capture_get_callback_count] returns 0,
    [audio_capture_destroy] releases nothing, [audio_capture_start]
    returns its failure code, and the data callback returns at once; no
    session comes into being and the backend is not called. *)
Theorem null_handle_calls_do_nothing out max_samples pInput frameCount :
  stop None out max_samples = Done (0, None, out) /\
  audio_capture_get_callback_count
    (@None (AudioCapture sample ma_device)) = 0 /\
  audio_capture_destroy (@None (AudioCapture sample ma_device))
    = (None, []) /\
  start None = (-1, None) /\
  data_callback (@None (AudioCapture sample ma_device)) pInput frameCount
    = Done None.
Proof. repeat split. Qed.

(** *** Runs of deliveries *)

Implicit Types batches : list (array sample * Z).

Local Abbreviation run_ops := (run ma_device_start ma_device_stop).

Lemma total_frames_nonneg batches :
  Forall (fun b => 0 <= snd b) batches -> 0 <= total_frames batches.
Proof.
  induction 1 as [|b rest Hb _ IH]; simpl; lia.
Qed.

(** Deliveries that fit, from any recording session: the count advances by
    the total, the new samples are the batches in order, and what was
    below the old count stays. *)
Lemma deliveries_append batches : forall cap,
  0 <= sample_count cap ->
  recording cap <> 0 ->
  Forall (fun b => 0 <= snd b) batches ->
  sample_count cap + total_frames batches < MAX_SAMPLES ->
  exists cap',
    run_ops (deliveries batches) (Some cap) = Done (Some cap') /\
    sample_count cap' = sample_count cap + total_frames batches /\
    read (buffer cap') (sample_count cap)
         (Z.to_nat (total_frames batches))
      = delivered_frames batches /\
    (forall i, i < sample_count cap -> buffer cap' i = buffer cap i) /\
    recording cap' = recording cap.
Proof.
  induction batches as [|[input frameCount] rest IH];
    intros cap Hs Hr Hall Hfit.
  - exists cap. simpl. repeat split. lia.
  - inversion Hall as [|b l Hf Hrest]; subst. simpl in Hf.
    pose proof (total_frames_nonneg rest Hrest) as Htot.
    simpl in Hfit.
    assert (Hfit1 : sample_count cap + frameCount < MAX_SAMPLES) by lia.
    pose proof (data_callback_accepted cap input frameCount Hs Hr Hf Hfit1)
      as Hstep.
    set (cap1 := {| device := device cap;
                    buffer := memcpy (buffer cap) (sample_count cap)
                                     input frameCount;
                    sample_count := sample_count cap + frameCount;
                    callback_count := to_int (callback_count cap + 1);
                    recording := recording cap |}) in *.
    destruct (IH cap1) as (cap' & Hrun & Hcount & Hread & Hkeep & Hrec).
    + simpl. lia.
    + exact Hr.
    + exact Hrest.
    + simpl. lia.
    + exists cap'. simpl in Hcount, Hread, Hkeep, Hrec.
      split; [|split; [|split; [|split]]].
      * cbn [deliveries map run apply_op fst snd].
        rewrite Hstep. exact Hrun.
      * simpl. lia.
      * cbn [total_frames fold_right delivered_frames map concat fst snd].
        fold (total_frames rest). fold (delivered_frames rest).
        rewrite Z2Nat.inj_add by assumption.
        rewrite read_app, Z2Nat.id by assumption.
        rewrite Hread. f_equal.
        rewrite <- (read_memcpy (buffer cap) (sample_count cap)
                                input frameCount Hf).
        apply read_ext. intros i Hi. apply Hkeep.
        rewrite Z2Nat.id in Hi by assumption. lia.
      * intros i Hi. rewrite Hkeep by lia.
        apply memcpy_outside. lia.
      * exact Hrec.
Qed.

(** C6.  After a start that the backend accepts, for every sequence of
    present batches whose frame counts add up to less than [MAX_SAMPLES]:
    once they have all been delivered, [sample_count] is the sum of the
    frame counts and the buffer, up to that length, is the batches one
    after the other in the order of delivery. *)
Theorem deliveries_accumulate_in_order cap batches :
  fst (ma_device_start (arm cap)) = MA_SUCCESS ->
  Forall (fun b => 0 <= snd b) batches ->
  total_frames batches < MAX_SAMPLES ->
  exists cap',
    run_ops (Start :: deliveries batches) (Some cap) = Done (Some cap') /\
    sample_count cap' = total_frames batches /\
    read (buffer cap') 0 (Z.to_nat (total_frames batches))
      = delivered_frames batches.
Proof.
  intros Hok Hall Hfit.
  cbn [run apply_op audio_capture_start].
  destruct (ma_device_start (arm cap)) as [res d]. simpl in Hok. subst res.
  cbn [snd].
  destruct (deliveries_append batches (set_device (arm cap) d))
    as (cap' & Hrun & Hcount & Hread & _).
  - simpl. lia.
  - simpl. discriminate.
  - exact Hall.
  - simpl. exact Hfit.
  - exists cap'. simpl in Hcount, Hread. repeat split; assumption.
Qed.

(** *** The capacity bound *)

(** With a frame count that cannot wrap, every call on a session inside
    its invariant returns, and keeps the invariant. *)
Lemma step_no_wrap_done o s :
  handle_inv s -> no_wrap_op o ->
  exists s',
    apply_op ma_device_start ma_device_stop o s = Done s' /\ handle_inv s'.
Proof.
  intros Hinv Hop.
  assert (Hstep : exists s',
             apply_op ma_device_start ma_device_stop o s = Done s').
  { destruct o as [|out max_samples|pInput frameCount|]; simpl.
    - eexists. reflexivity.
    - destruct s as [cap|].
      + destruct (stop_returns_count_and_copies_aux
                    cap out max_samples Hinv) as (out' & ->).
        eexists. reflexivity.
      + eexists. reflexivity.
    - destruct s as [cap|].
      + apply data_callback_no_wrap_done; assumption.
      + eexists. reflexivity.
    - eexists. reflexivity. }
  destruct Hstep as [s' Hstep]. exists s'. split; [exact Hstep|].
  exact (apply_op_inv o s s' Hinv Hstep).
Qed.

(** C3.  Whatever sequence of start, stop, data-callback and
    counter-query calls follows [audio_capture_create], the session it
    leaves holds at most [MAX_SAMPLES] (960,000) samples, and it stays so
    at the next call.  The count that [data_callback] stores for a batch
    its guard accepts is again between 0 and [MAX_SAMPLES], for every
    frame count, also one that wraps the guard and sends the copy out of
    the buffer.  And a next call whose frame count is at most
    2^32 - 960,000 returns, into a session that again holds at most
    [MAX_SAMPLES] samples: the bound is kept by the guard, not by the
    calls that fail. *)
Theorem sample_count_never_exceeds_capacity
    malloc_cap malloc_buffer ops cap :
  run ma_device_start ma_device_stop ops (create malloc_cap malloc_buffer)
    = Done (Some cap) ->
  sample_count cap <= MAX_SAMPLES /\
  (forall frameCount,
     accepts cap frameCount = true ->
     0 <= to_int (uint32_add (to_uint32 (sample_count cap)) frameCount)
       <= MAX_SAMPLES) /\
  (forall o,
     no_wrap_op o ->
     exists cap',
       apply_op ma_device_start ma_device_stop o (Some cap)
         = Done (Some cap') /\
       sample_count cap' <= MAX_SAMPLES).
Proof.
  intros Hrun.
  pose proof (run_inv ops _ _ (create_inv malloc_cap malloc_buffer) Hrun)
    as Hinv.
  split; [|split].
  - simpl in Hinv. unfold session_inv in Hinv. lia.
  - intros frameCount Hacc.
    pose proof (accepted_count_in_buffer cap frameCount Hacc). lia.
  - intros o Hop.
    destruct (step_no_wrap_done o (Some cap) Hinv Hop) as (s' & Hstep & Hs').
    destruct s' as [cap'|].
    + exists cap'. split; [exact Hstep|].
      simpl in Hs'. unfold session_inv in Hs'. lia.
    + exfalso.
      destruct o as [|out max_samples|pInput frameCount|];
        cbn [apply_op] in Hstep.
      * unfold audio_capture_start in Hstep.
        destruct (ma_device_start (arm cap)) as [[|] d]; discriminate.
      * destruct (stop (Some cap) out max_samples) as [r|] eqn:E;
          [|discriminate].
        apply stop_shape in E. destruct E as [out' ->]. discriminate.
      * unfold data_callback in Hstep.
        destruct (recording cap =? 0); [discriminate|].
        destruct pInput as [input|]; [|discriminate].
        destruct (accepts cap frameCount); [|discriminate].
        destruct (in_buffer _ _); discriminate.
      * discriminate.
Qed.

End Control.

(** ** The properties at concrete sessions *)

(** C3 on a history of the concrete backend. *)
Lemma sample_count_never_exceeds_capacity_witness :
  sample_count Demo.after_history <= MAX_SAMPLES /\
  (forall frameCount,
     accepts Demo.after_history frameCount = true ->
     0 <= to_int (uint32_add (to_uint32 480) frameCount) <= MAX_SAMPLES) /\
  (forall o,
     no_wrap_op o ->
     exists cap',
       apply_op Demo.dev_start Demo.dev_stop o (Some Demo.after_history)
         = Done (Some cap') /\
       sample_count cap' <= MAX_SAMPLES).
Proof.
  apply (sample_count_never_exceeds_capacity
           Demo.dev_init Demo.dev_start Demo.dev_stop
           true (Some Demo.silence) Demo.history Demo.after_history).
  vm_compute. reflexivity.
Defined.

(** C5 on a stopped session of five samples read into a buffer of three. *)
Lemma stop_returns_count_and_copies_witness :
  exists cap' out',
    audio_capture_stop Demo.dev_stop (Some Demo.idle) (Some Demo.silence) 3
      = Done (5, Some cap', out') /\
    recording cap' = 0 /\
    sample_count cap' = 5 /\
    buffer cap' = Demo.ramp /\
    (Some Demo.silence = None -> out' = None) /\
    (3 <= 0 -> out' = Some Demo.silence) /\
    (forall o, Some Demo.silence = Some o -> 0 < 3 ->
       exists o',
         out' = Some o' /\
         read o' 0 3 = read Demo.ramp 0 3 /\
         (forall i, i < 0 \/ 3 <= i -> o' i = o i)).
Proof.
  apply (stop_returns_count_and_copies
           Demo.dev_stop Demo.idle (Some Demo.silence) 3).
  unfold session_inv. simpl. rewrite MAX_SAMPLES_value. lia.
Defined.

(** C6 on three batches. *)
Lemma deliveries_accumulate_in_order_witness :
  exists cap',
    run Demo.dev_start Demo.dev_stop (Start :: deliveries Demo.batches)
        (Some Demo.idle) = Done (Some cap') /\
    sample_count cap' = 7 /\
    read (buffer cap') 0 7 = [1; 2; 3; 0; 0; 1; 2].
Proof.
  apply (deliveries_accumulate_in_order
           Demo.dev_start Demo.dev_stop Demo.idle Demo.batches).
  - reflexivity.
  - unfold Demo.batches. repeat constructor; simpl; lia.
  - vm_compute. reflexivity.
Defined.

(** C7 on a stopped session. *)
Lemma stop_again_returns_same_count_witness :
  exists cap' out',
    audio_capture_stop Demo.dev_stop (Some Demo.idle) None 0
      = Done (5, Some cap', out') /\
    device cap' = 2%nat /\
    recording cap' = 0 /\
    session_inv cap' /\
    forall out2 max_samples2,
    exists cap'' out'',
      audio_capture_stop Demo.dev_stop (Some cap') out2 max_samples2
        = Done (5, Some cap'', out'').
Proof.
  apply (stop_again_returns_same_count Demo.dev_stop Demo.idle None 0).
  - unfold session_inv. simpl. rewrite MAX_SAMPLES_value. lia.
  - reflexivity.
Defined.

(** C9 on a session whose device refuses the start. *)
Lemma failed_start_clears_counters_witness :
  exists cap',
    audio_capture_start Demo.dev_start (Some Demo.fresh) = (-1, Some cap') /\
    sample_count cap' = 0 /\ callback_count cap' = 0 /\
    recording cap' = 0 /\
    audio_capture_get_callback_count (Some cap') = 0 /\
    exists cap'',
      audio_capture_stop Demo.dev_stop (Some cap') None 0
        = Done (0, Some cap'', None).
Proof.
  apply (failed_start_clears_counters
           Demo.dev_start Demo.dev_stop Demo.fresh).
  reflexivity.
Defined.

(** ** Scenarios of the specification, run on the concrete backend *)

(** create, start, three batches of 500 frames, stop into a buffer of 2000:
    the call returns 1500, the first 1500 slots are the input in order, and
    the callback counter reads 3. *)
Example scenario_three_batches :
  exists cap out',
    audio_capture_stop Demo.dev_stop
      (match run Demo.dev_start Demo.dev_stop
               [Start; Start;
                DataAvailable (Some Demo.ramp) 500;
                DataAvailable (Some Demo.silence) 500;
                DataAvailable (Some Demo.ramp) 500]
               (audio_capture_create Demo.dev_init true (Some Demo.silence))
       with Done s => s | Fault => None end)
      (Some Demo.silence) 2000
    = Done (1500, Some cap, Some out') /\
    audio_capture_get_callback_count (Some cap) = 3 /\
    read out' 0 1500
    = read Demo.ramp 0 500 ++ read Demo.silence 0 500 ++ read Demo.ramp 0 500.
Proof.
  do 2 eexists. split; [vm_compute; reflexivity|].
  split; vm_compute; reflexivity.
Qed.

(** A batch that exceeds the remaining room by 10 frames is dropped: the
    count returned by stop and the callback counter are those from before
    the batch. *)
Example scenario_overflowing_batch :
  data_callback (Some Demo.nearly_full) (Some Demo.ramp) 490
    = Done (Some Demo.nearly_full) /\
  exists cap,
    audio_capture_stop Demo.dev_stop (Some Demo.nearly_full) None 0
      = Done (sample_count Demo.nearly_full, Some cap, None) /\
    audio_capture_get_callback_count (Some cap)
      = callback_count Demo.nearly_full.
Proof.
  split; [reflexivity|]. eexists. split; reflexivity.
Qed.

(** A refused start can be retried: the first start of a created session
    fails on the concrete backend, the second succeeds. *)
Example scenario_retry_start :
  exists cap1 cap2,
    audio_capture_start Demo.dev_start
      (audio_capture_create Demo.dev_init true (Some Demo.silence))
      = (-1, Some cap1) /\
    recording cap1 = 0 /\
    audio_capture_start Demo.dev_start (Some cap1) = (0, Some cap2) /\
    recording cap2 = 1.
Proof.
  do 2 eexists. split; [reflexivity|]. split; [reflexivity|].
  split; reflexivity.
Qed.

(** ** Further properties of the code *)

Lemma to_int_range (x : Z) : is_int (to_int x).
Proof.
  unfold is_int, to_int, INT_MIN, INT_MAX, UINT32_MOD.
  pose proof (Z.mod_pos_bound (x + 2 ^ 31) (2 ^ 32) eq_refl) as H.
  lia.
Qed.

Section ArraysMore.

Context {sample : Type}.
Implicit Types a o src : array sample.

Lemma firstn_read a off k n :
  (k <= n)%nat -> firstn k (read a off n) = read a off k.
Proof.
  intros Hk. replace n with (k + (n - k))%nat by lia.
  rewrite read_app, firstn_app, read_length, Nat.sub_diag.
  rewrite firstn_all2 by (rewrite read_length; lia).
  simpl. apply app_nil_r.
Qed.

End ArraysMore.

(** *** The data callback, further *)

Section DataCallbackMore.

Context {sample ma_device : Type}.
Implicit Types cap : AudioCapture sample ma_device.
Implicit Types input : array sample.

(** What an accepted batch that is written inside the buffer tells about
    the numbers involved. *)
Lemma in_buffer_bounds off n :
  in_buffer off n = true -> 0 <= off /\ 0 <= n /\ off + n <= MAX_SAMPLES.
Proof.
  unfold in_buffer. intros H.
  apply andb_prop in H. destruct H as [H H3].
  apply andb_prop in H. destruct H as [H1 H2].
  apply Z.leb_le in H1, H2, H3. auto.
Qed.

Lemma new_count_no_wrap sc frameCount :
  0 <= sc -> 0 <= frameCount -> sc + frameCount <= MAX_SAMPLES ->
  to_int (uint32_add (to_uint32 sc) frameCount) = sc + frameCount.
Proof.
  intros H1 H2 H3. rewrite MAX_SAMPLES_value in H3.
  rewrite uint32_add_to_uint32.
  rewrite to_uint32_small by (unfold is_uint32, UINT32_MOD; lia).
  apply to_int_small. unfold is_int, INT_MIN, INT_MAX. lia.
Qed.

(** X3.  Whenever [data_callback] returns, the session it leaves has the
    same device and the same recording flag, a [sample_count] that is either
    the old one or the old one plus [frameCount] and in any case not
    smaller, and a buffer that agrees with the old one below the old
    [sample_count]: samples already captured are never overwritten. *)
Theorem data_callback_keeps_captured cap pInput frameCount cap' :
  data_callback (Some cap) pInput frameCount = Done (Some cap') ->
  device cap' = device cap /\
  recording cap' = recording cap /\
  (sample_count cap' = sample_count cap \/
   sample_count cap' = sample_count cap + frameCount) /\
  sample_count cap <= sample_count cap' /\
  (forall i, i < sample_count cap -> buffer cap' i = buffer cap i).
Proof.
  unfold data_callback.
  assert (Hsame : device cap = device cap /\
                  recording cap = recording cap /\
                  (sample_count cap = sample_count cap \/
                   sample_count cap = sample_count cap + frameCount) /\
                  sample_count cap <= sample_count cap /\
                  (forall i, i < sample_count cap ->
                             buffer cap i = buffer cap i))
    by (repeat split; auto; lia).
  destruct (recording cap =? 0); [intros [= <-]; exact Hsame|].
  destruct pInput as [input|]; [|intros [= <-]; exact Hsame].
  destruct (accepts cap frameCount); [|intros [= <-]; exact Hsame].
  destruct (in_buffer (sample_count cap) frameCount) eqn:Hin;
    [|discriminate].
  apply in_buffer_bounds in Hin. destruct Hin as (H1 & H2 & H3).
  intros [= <-]. simpl.
  rewrite new_count_no_wrap by assumption.
  repeat split; auto; try lia.
  intros i Hi. apply memcpy_outside. lia.
Qed.

(** X4.  A batch that does not fit ([MAX_SAMPLES <= sample_count +
    frameCount]) and whose frame count does not wrap the unsigned sum is
    dropped whole, whatever the input pointer and the recording flag:
    the session is returned as it was. *)
Theorem batch_beyond_capacity_dropped cap pInput frameCount :
  0 <= sample_count cap ->
  0 <= frameCount ->
  MAX_SAMPLES <= sample_count cap + frameCount ->
  sample_count cap + frameCount < UINT32_MOD ->
  data_callback (Some cap) pInput frameCount = Done (Some cap).
Proof.
  intros Hs Hf Hfull Hw. apply data_callback_dropped; auto.
Qed.

(** X5.  For a recording session inside its invariant and a present
    input, [data_callback] runs into undefined behaviour exactly when the
    frame count wraps the unsigned sum of the guard, that is when
    [sample_count + frameCount] reaches 2^32. *)
Theorem data_callback_faults_iff_wrap cap input frameCount :
  session_inv cap ->
  recording cap <> 0 ->
  is_uint32 frameCount ->
  (data_callback (Some cap) (Some input) frameCount = Fault <->
   UINT32_MOD <= sample_count cap + frameCount).
Proof.
  intros Hinv Hr Hfc. split.
  - intros Hfault.
    destruct (Z_lt_le_dec (sample_count cap + frameCount) UINT32_MOD)
      as [Hno|Hwrap]; [|exact Hwrap].
    exfalso. destruct Hinv as [Hlo Hhi]. destruct Hfc as [Hf0 Hf1].
    destruct (Z_lt_le_dec (sample_count cap + frameCount) MAX_SAMPLES)
      as [Hfit|Hfull].
    + rewrite data_callback_accepted in Hfault by assumption. discriminate.
    + rewrite data_callback_dropped in Hfault by auto. discriminate.
  - intros Hwrap. unfold data_callback.
    apply Z.eqb_neq in Hr. rewrite Hr.
    rewrite (accepts_wrapped cap frameCount Hinv Hfc Hwrap).
    destruct (in_buffer (sample_count cap) frameCount) eqn:Hin;
      [|reflexivity].
    apply in_buffer_bounds in Hin. destruct Hin as (_ & _ & H3).
    rewrite MAX_SAMPLES_value in H3. unfold UINT32_MOD in Hwrap. lia.
Qed.

End DataCallbackMore.

(** *** Creation and histories, further *)

Section ControlMore.

Context {sample ma_device : Type}.
Variable ma_device_init : ma_device_config -> ma_result * ma_device.
Variable ma_device_start :
  AudioCapture sample ma_device -> ma_result * ma_device.
Variable ma_device_stop :
  AudioCapture sample ma_device -> ma_result * ma_device.
Implicit Types cap : AudioCapture sample ma_device.
Implicit Types s : option (AudioCapture sample ma_device).
Implicit Types malloc_buffer out : option (array sample).
Implicit Types o input : array sample.
Implicit Types batches : list (array sample * Z).

Local Abbreviation start := (audio_capture_start ma_device_start).
Local Abbreviation stop := (audio_capture_stop ma_device_stop).
Local Abbreviation create := (audio_capture_create ma_device_init).
Local Abbreviation run_ops := (run ma_device_start ma_device_stop).
Local Abbreviation step := (apply_op ma_device_start ma_device_stop).

(** X1.  [audio_capture_create] yields a session exactly when both
    allocations succeed and the backend opens the device with the capture
    configuration; the session then holds that device and that buffer, both
    counters at zero, and is not recording.  In every other case the result
    is null. *)
Theorem create_succeeds_iff malloc_cap malloc_buffer cap :
  create malloc_cap malloc_buffer = Some cap <->
  malloc_cap = true /\
  exists fresh d,
    malloc_buffer = Some fresh /\
    ma_device_init capture_config = (MA_SUCCESS, d) /\
    cap = {| device := d; buffer := fresh; sample_count := 0;
             callback_count := 0; recording := 0 |}.
Proof.
  unfold audio_capture_create. split.
  - destruct malloc_cap; [|discriminate].
    destruct malloc_buffer as [fresh|]; [|discriminate].
    destruct (ma_device_init capture_config) as [[|] d]; [|discriminate].
    intros [= <-]. split; [reflexivity|].
    exists fresh, d. repeat split.
  - intros (-> & fresh & d & -> & Hinit & ->). rewrite Hinit. reflexivity.
Qed.

Lemma create_wf malloc_cap malloc_buffer :
  handle_wf (create malloc_cap malloc_buffer).
Proof.
  unfold audio_capture_create.
  destruct malloc_cap; [|exact I].
  destruct malloc_buffer as [fresh|]; [|exact I].
  destruct (ma_device_init capture_config) as [[|] d]; [|exact I].
  split; [exact zero_in_buffer|]. split; [left; reflexivity|].
  unfold is_int, INT_MIN, INT_MAX. simpl. lia.
Qed.

Lemma wf_inv s : handle_wf s -> handle_inv s.
Proof. destruct s as [cap|]; [intros [H _]; exact H|trivial]. Qed.

Lemma step_wf op1 s s' :
  handle_wf s -> step op1 s = Done s' -> handle_wf s'.
Proof.
  intros Hwf Hstep.
  pose proof (apply_op_inv ma_device_start ma_device_stop op1 s s'
                (wf_inv s Hwf) Hstep) as Hinv.
  destruct s' as [cap'|]; [|exact I].
  split; [exact Hinv|].
  destruct op1 as [|out max_samples|pInput frameCount|]; simpl in Hstep.
  - destruct s as [cap|]; [|discriminate].
    unfold audio_capture_start in Hstep.
    destruct (ma_device_start (arm cap)) as [[|] d];
      simpl in Hstep; inversion Hstep; subst; simpl;
      (split; [auto|]); unfold is_int, INT_MIN, INT_MAX; lia.
  - destruct s as [cap|]; [|discriminate].
    destruct (stop (Some cap) out max_samples) as [r|] eqn:E;
      [|discriminate].
    apply stop_shape in E. destruct E as [out' ->].
    inversion Hstep; subst. simpl. destruct Hwf as (_ & _ & Hcc).
    split; [left; reflexivity|exact Hcc].
  - destruct s as [cap|]; [|discriminate].
    destruct Hwf as (_ & Hrec & Hcc).
    unfold data_callback in Hstep.
    destruct (recording cap =? 0); [inversion Hstep; subst; auto|].
    destruct pInput as [input|]; [|inversion Hstep; subst; auto].
    destruct (accepts cap frameCount); [|inversion Hstep; subst; auto].
    destruct (in_buffer _ _); [|discriminate].
    inversion Hstep; subst. simpl. split; [exact Hrec|apply to_int_range].
  - inversion Hstep; subst. destruct Hwf as (_ & Hrec & Hcc). auto.
Qed.

Lemma run_wf ops s s' :
  handle_wf s -> run_ops ops s = Done s' -> handle_wf s'.
Proof.
  revert s. induction ops as [|op1 rest IH]; intros s Hwf; simpl.
  - intros [= <-]. exact Hwf.
  - destruct (step op1 s) as [s1|] eqn:E; [|discriminate].
    apply IH. exact (step_wf op1 s s1 Hwf E).
Qed.

(** X2.  After [audio_capture_create] and any sequence of calls, the
    session holds between 0 and 959,999 samples ([sample_count] is never
    negative and stays strictly below [MAX_SAMPLES]), its [recording] flag
    is 0 or 1, and its callback counter is within the range of [int]. *)
Theorem reachable_session_wellformed malloc_cap malloc_buffer ops cap :
  run_ops ops (create malloc_cap malloc_buffer) = Done (Some cap) ->
  0 <= sample_count cap <= 959999 /\
  (recording cap = 0 \/ recording cap = 1) /\
  INT_MIN <= callback_count cap <= INT_MAX.
Proof.
  intros Hrun.
  pose proof (run_wf ops _ _ (create_wf malloc_cap malloc_buffer) Hrun)
    as ([Hlo Hhi] & Hrec & Hcc).
  rewrite MAX_SAMPLES_value in Hhi. unfold is_int in Hcc.
  repeat split; auto; lia.
Qed.

(** X6.  A session that is not recording ignores the backend: any sequence
    of data callbacks, whatever their inputs and frame counts, returns and
    leaves the session exactly as it was. *)
Theorem idle_session_ignores_callbacks cap ops :
  recording cap = 0 ->
  Forall is_delivery ops ->
  run_ops ops (Some cap) = Done (Some cap).
Proof.
  intros Hr Hall. induction Hall as [|op1 rest Hop _ IH]; [reflexivity|].
  destruct op1 as [|out max_samples|pInput frameCount|];
    try contradiction.
  simpl. apply Z.eqb_eq in Hr. rewrite Hr. exact IH.
Qed.

(** X12.  From a valid handle, null or to a session inside its invariant,
    a history of start, stop, data-callback and counter-query calls whose
    frame counts are at most 2^32 - 960,000 never runs into undefined
    behaviour: every call returns, and the session is inside its invariant
    at the end. *)
Theorem bounded_frames_never_fault ops : forall s,
  handle_inv s ->
  Forall no_wrap_op ops ->
  exists s', run_ops ops s = Done s' /\ handle_inv s'.
Proof.
  induction ops as [|op1 rest IH]; intros s Hinv Hall.
  - exists s. split; [reflexivity|exact Hinv].
  - inversion Hall as [|x l Hop Hrest]; subst.
    destruct (step_no_wrap_done ma_device_start ma_device_stop
                op1 s Hinv Hop) as (s1 & Hstep & Hinv1).
    simpl. rewrite Hstep. apply IH; assumption.
Qed.

End ControlMore.

(** *** Recording from start to stop *)

Section EndToEnd.

Context {sample ma_device : Type}.
Variable ma_device_start :
  AudioCapture sample ma_device -> ma_result * ma_device.
Variable ma_device_stop :
  AudioCapture sample ma_device -> ma_result * ma_device.
Implicit Types cap : AudioCapture sample ma_device.
Implicit Types out : option (array sample).
Implicit Types o input : array sample.
Implicit Types batches : list (array sample * Z).

Local Abbreviation start := (audio_capture_start ma_device_start).
Local Abbreviation stop := (audio_capture_stop ma_device_stop).
Local Abbreviation run_ops := (run ma_device_start ma_device_stop).

(** The session a stop leaves. *)
Local Abbreviation stopped cap :=
  (set_device (set_recording cap 0)
     (snd (ma_device_stop (set_recording cap 0)))).

Lemma stop_with_buffer cap o max_samples :
  session_inv cap -> 0 < max_samples ->
  stop (Some cap) (Some o) max_samples
  = Done (sample_count cap, Some (stopped cap),
          Some (memcpy o 0 (buffer cap)
                       (Z.min (sample_count cap) max_samples))).
Proof.
  intros Hinv Hmax. unfold audio_capture_stop.
  replace (0 <? max_samples) with true by (symmetry; now apply Z.ltb_lt).
  cbn [set_device set_recording sample_count buffer].
  rewrite (stop_copy_from_buffer cap max_samples Hinv Hmax).
  rewrite min_as_conditional. reflexivity.
Qed.

Lemma stop_without_copy cap out max_samples :
  out = None \/ max_samples <= 0 ->
  stop (Some cap) out max_samples
  = Done (sample_count cap, Some (stopped cap), out).
Proof.
  intros H. unfold audio_capture_stop.
  destruct out as [o|]; [|reflexivity].
  destruct H as [H|H]; [discriminate|].
  replace (0 <? max_samples) with false by (symmetry; now apply Z.ltb_ge).
  reflexivity.
Qed.

(** The callback counter along deliveries that fit. *)
Lemma deliveries_count batches : forall cap cap',
  0 <= sample_count cap ->
  recording cap <> 0 ->
  Forall (fun b => 0 <= snd b) batches ->
  sample_count cap + total_frames batches < MAX_SAMPLES ->
  0 <= callback_count cap ->
  callback_count cap + Z.of_nat (length batches) <= INT_MAX ->
  run_ops (deliveries batches) (Some cap) = Done (Some cap') ->
  callback_count cap' = callback_count cap + Z.of_nat (length batches).
Proof.
  induction batches as [|[input frameCount] rest IH];
    intros cap cap' Hs Hr Hall Hfit Hc0 Hc1 Hrun.
  - simpl in *. injection Hrun as <-. lia.
  - inversion Hall as [|b l Hf Hrest]; subst. simpl in Hf.
    pose proof (total_frames_nonneg rest Hrest) as Htot.
    simpl in Hfit. cbn [length] in Hc1.
    cbn [deliveries map run apply_op fst snd] in Hrun.
    rewrite data_callback_accepted in Hrun by (auto; lia).
    apply IH in Hrun; simpl; try assumption; try lia.
    + simpl in Hrun. rewrite Hrun.
      rewrite to_int_small by (unfold is_int, INT_MIN, INT_MAX in *; lia).
      lia.
    + rewrite to_int_small by (unfold is_int, INT_MIN, INT_MAX in *; lia).
      lia.
    + rewrite to_int_small by (unfold is_int, INT_MIN, INT_MAX in *; lia).
      lia.
Qed.

(** X7.  Round trip of a recording.  After a start the backend accepts and
    deliveries of present batches that add up to less than [MAX_SAMPLES],
    a stop with an output buffer of positive capacity returns the total
    number of frames and puts into the output the delivered frames in
    order, cut at the capacity; the output is untouched beyond that. *)
Theorem capture_round_trip cap batches o max_samples :
  fst (ma_device_start (arm cap)) = MA_SUCCESS ->
  Forall (fun b => 0 <= snd b) batches ->
  total_frames batches < MAX_SAMPLES ->
  0 < max_samples ->
  exists cap1 cap2 o',
    run_ops (Start :: deliveries batches) (Some cap) = Done (Some cap1) /\
    stop (Some cap1) (Some o) max_samples
      = Done (total_frames batches, Some cap2, Some o') /\
    read o' 0 (Z.to_nat (Z.min (total_frames batches) max_samples))
      = firstn (Z.to_nat (Z.min (total_frames batches) max_samples))
               (delivered_frames batches) /\
    (forall i, i < 0 \/ Z.min (total_frames batches) max_samples <= i ->
               o' i = o i).
Proof.
  intros Hok Hall Hfit Hmax.
  pose proof (total_frames_nonneg batches Hall) as Htot.
  cbn [run apply_op audio_capture_start].
  destruct (ma_device_start (arm cap)) as [res d]. simpl in Hok. subst res.
  cbn [snd].
  destruct (deliveries_append ma_device_start ma_device_stop
              batches (set_device (arm cap) d)
              ltac:(simpl; lia) ltac:(simpl; discriminate) Hall Hfit)
    as (cap1 & Hrun & Hcount & Hread & _).
  simpl in Hcount, Hread.
  assert (Hinv : session_inv cap1) by (unfold session_inv; lia).
  exists cap1, (stopped cap1). eexists.
  split; [exact Hrun|]. split.
  - rewrite (stop_with_buffer cap1 o max_samples Hinv Hmax).
    rewrite Hcount. reflexivity.
  - split.
    + rewrite read_memcpy by lia. rewrite <- Hread.
      symmetry. apply firstn_read. apply Z2Nat.inj_le; lia.
    + intros i Hi. apply memcpy_outside. lia.
Qed.

(** X8.  The callback counter counts the accepted deliveries.  After a
    start the backend accepts and deliveries of present batches that all
    fit, at most [INT_MAX] of them, a stop of any kind leaves a session
    whose [audio_capture_get_callback_count] is the number of batches. *)
Theorem callback_count_counts_deliveries cap batches out max_samples :
  fst (ma_device_start (arm cap)) = MA_SUCCESS ->
  Forall (fun b => 0 <= snd b) batches ->
  total_frames batches < MAX_SAMPLES ->
  Z.of_nat (length batches) <= INT_MAX ->
  exists cap1 cap2 out',
    run_ops (Start :: deliveries batches) (Some cap) = Done (Some cap1) /\
    audio_capture_get_callback_count (Some cap1)
      = Z.of_nat (length batches) /\
    stop (Some cap1) out max_samples
      = Done (total_frames batches, Some cap2, out') /\
    audio_capture_get_callback_count (Some cap2)
      = Z.of_nat (length batches).
Proof.
  intros Hok Hall Hfit Hlen.
  pose proof (total_frames_nonneg batches Hall) as Htot.
  cbn [run apply_op audio_capture_start].
  destruct (ma_device_start (arm cap)) as [res d]. simpl in Hok. subst res.
  cbn [snd].
  destruct (deliveries_append ma_device_start ma_device_stop
              batches (set_device (arm cap) d)
              ltac:(simpl; lia) ltac:(simpl; discriminate) Hall Hfit)
    as (cap1 & Hrun & Hcount & _).
  simpl in Hcount.
  pose proof (deliveries_count batches (set_device (arm cap) d) cap1
                ltac:(simpl; lia) ltac:(simpl; discriminate) Hall Hfit
                ltac:(simpl; lia) Hlen Hrun) as Hcc.
  simpl in Hcc.
  assert (Hinv : session_inv cap1) by (unfold session_inv; lia).
  destruct (stop_returns_count_and_copies_aux
              ma_device_stop cap1 out max_samples Hinv) as (out' & Hstop).
  exists cap1, (stopped cap1), out'.
  split; [exact Hrun|]. split; [exact Hcc|]. split.
  - rewrite Hstop, Hcount. reflexivity.
  - simpl. exact Hcc.
Qed.

(** X9.  The two calls of the header.  On a session inside its invariant,
    a stop with a null buffer returns the count, and a second stop with a
    buffer of that capacity returns the same count and fills the buffer
    with exactly the captured samples. *)
Theorem stop_query_then_fetch cap o max_samples :
  session_inv cap ->
  exists cap1 cap2 o',
    stop (Some cap) None max_samples
      = Done (sample_count cap, Some cap1, None) /\
    stop (Some cap1) (Some o) (sample_count cap)
      = Done (sample_count cap, Some cap2, Some o') /\
    read o' 0 (Z.to_nat (sample_count cap))
      = read (buffer cap) 0 (Z.to_nat (sample_count cap)) /\
    (forall i, i < 0 \/ sample_count cap <= i -> o' i = o i).
Proof.
  intros Hinv. exists (stopped cap), (stopped (stopped cap)).
  assert (Hinv1 : session_inv (stopped cap)) by exact Hinv.
  destruct (Z_lt_le_dec 0 (sample_count cap)) as [Hpos|Hzero].
  - eexists. split; [apply stop_without_copy; now left|].
    split; [exact (stop_with_buffer (stopped cap) o _ Hinv1 Hpos)|].
    cbn [set_device set_recording sample_count buffer].
    rewrite Z.min_id. split.
    + apply read_memcpy. lia.
    + intros i Hi. apply memcpy_outside. lia.
  - exists o. split; [apply stop_without_copy; now left|].
    split; [apply (stop_without_copy (stopped cap)); now right|].
    destruct Hinv as [Hlo _].
    replace (sample_count cap) with 0 by lia. split; [reflexivity|auto].
Qed.

(** X10.  A start discards what was captured before, whether the backend
    accepts it or not: a stop right after it returns 0 and leaves every
    slot of the output buffer as it was. *)
Theorem start_discards_previous_recording cap o max_samples :
  exists cap1 cap2 o',
    snd (audio_capture_start ma_device_start (Some cap)) = Some cap1 /\
    audio_capture_stop ma_device_stop (Some cap1) (Some o) max_samples
      = Done (0, Some cap2, Some o') /\
    (forall i, o' i = o i).
Proof.
  assert (H : exists cap1,
             snd (start (Some cap)) = Some cap1 /\ sample_count cap1 = 0).
  { unfold audio_capture_start.
    destruct (ma_device_start (arm cap)) as [[|] d];
      eexists; split; reflexivity. }
  destruct H as (cap1 & Hstart & Hzero).
  assert (Hinv : session_inv cap1)
    by (unfold session_inv; rewrite Hzero; exact zero_in_buffer).
  exists cap1, (stopped cap1).
  destruct (Z_lt_le_dec 0 max_samples) as [Hpos|Hnone].
  - eexists. split; [exact Hstart|]. split.
    + rewrite (stop_with_buffer cap1 o max_samples Hinv Hpos).
      rewrite Hzero. reflexivity.
    + intros i. apply memcpy_outside. lia.
  - exists o. split; [exact Hstart|]. split; [|reflexivity].
    rewrite (stop_without_copy cap1 (Some o) max_samples) by now right.
    rewrite Hzero. reflexivity.
Qed.

(** X11.  Dropping is per batch.  After a batch that was dropped for want
    of room, a later batch that fits is still accepted and stored right
    behind the samples already held: the recording goes on with a gap. *)
Theorem dropped_batch_then_smaller_batch_accepted
    cap input1 frameCount1 input2 frameCount2 :
  session_inv cap ->
  recording cap <> 0 ->
  0 <= frameCount1 ->
  MAX_SAMPLES <= sample_count cap + frameCount1 < UINT32_MOD ->
  0 <= frameCount2 ->
  sample_count cap + frameCount2 < MAX_SAMPLES ->
  exists cap',
    run_ops [DataAvailable (Some input1) frameCount1;
             DataAvailable (Some input2) frameCount2] (Some cap)
      = Done (Some cap') /\
    sample_count cap' = sample_count cap + frameCount2 /\
    read (buffer cap') (sample_count cap) (Z.to_nat frameCount2)
      = read input2 0 (Z.to_nat frameCount2) /\
    (forall i, i < sample_count cap -> buffer cap' i = buffer cap i).
Proof.
  intros [Hlo Hhi] Hr Hf1 Hfull Hf2 Hfit.
  cbn [run apply_op].
  rewrite data_callback_dropped by assumption.
  rewrite data_callback_accepted by assumption.
  eexists. split; [reflexivity|]. simpl. split; [reflexivity|]. split.
  - now apply read_memcpy.
  - intros i Hi. apply memcpy_outside. lia.
Qed.

End EndToEnd.

(** *** The further properties at concrete sessions *)

Lemma reachable_session_wellformed_witness :
  0 <= sample_count Demo.after_history <= 959999 /\
  (recording Demo.after_history = 0 \/ recording Demo.after_history = 1) /\
  INT_MIN <= callback_count Demo.after_history <= INT_MAX.
Proof.
  apply (reachable_session_wellformed
           Demo.dev_init Demo.dev_start Demo.dev_stop
           true (Some Demo.silence) Demo.history Demo.after_history).
  vm_compute. reflexivity.
Defined.

Lemma data_callback_keeps_captured_witness :
  device Demo.busy_after = 2%nat /\
  recording Demo.busy_after = 1 /\
  (sample_count Demo.busy_after = 1000 \/
   sample_count Demo.busy_after = 1000 + 480) /\
  1000 <= sample_count Demo.busy_after /\
  (forall i, i < 1000 -> buffer Demo.busy_after i = Demo.silence i).
Proof.
  apply (data_callback_keeps_captured
           Demo.busy (Some Demo.ramp) 480 Demo.busy_after).
  vm_compute. reflexivity.
Defined.

Lemma batch_beyond_capacity_dropped_witness :
  data_callback (Some Demo.busy) (Some Demo.ramp) 960000
  = Done (Some Demo.busy).
Proof.
  apply (batch_beyond_capacity_dropped Demo.busy (Some Demo.ramp) 960000).
  - simpl. lia.
  - lia.
  - simpl. rewrite MAX_SAMPLES_value. lia.
  - simpl. unfold UINT32_MOD. lia.
Defined.

Lemma data_callback_faults_iff_wrap_witness :
  data_callback (Some Demo.busy) (Some Demo.ramp) 4294967295 = Fault <->
  UINT32_MOD <= 1000 + 4294967295.
Proof.
  apply (data_callback_faults_iff_wrap Demo.busy Demo.ramp 4294967295).
  - unfold session_inv. simpl. rewrite MAX_SAMPLES_value. lia.
  - simpl. discriminate.
  - unfold is_uint32, UINT32_MOD. lia.
Defined.

Lemma idle_session_ignores_callbacks_witness :
  run Demo.dev_start Demo.dev_stop Demo.late_callbacks (Some Demo.idle)
  = Done (Some Demo.idle).
Proof.
  apply (idle_session_ignores_callbacks
           Demo.dev_start Demo.dev_stop Demo.idle Demo.late_callbacks).
  - reflexivity.
  - unfold Demo.late_callbacks. repeat constructor.
Defined.

Lemma bounded_frames_never_fault_witness :
  exists s',
    run Demo.dev_start Demo.dev_stop Demo.history (Some Demo.busy) = Done s'
    /\ handle_inv s'.
Proof.
  apply (bounded_frames_never_fault
           Demo.dev_start Demo.dev_stop Demo.history (Some Demo.busy)).
  - unfold handle_inv, session_inv. simpl. rewrite MAX_SAMPLES_value. lia.
  - unfold Demo.history.
    repeat constructor; try (vm_compute; discriminate).
Defined.

Lemma capture_round_trip_witness :
  exists cap1 cap2 o',
    run Demo.dev_start Demo.dev_stop (Start :: deliveries Demo.batches)
        (Some Demo.idle) = Done (Some cap1) /\
    audio_capture_stop Demo.dev_stop (Some cap1) (Some Demo.silence) 4
      = Done (7, Some cap2, Some o') /\
    read o' 0 4 = [1; 2; 3; 0] /\
    (forall i, i < 0 \/ 4 <= i -> o' i = Demo.silence i).
Proof.
  apply (capture_round_trip
           Demo.dev_start Demo.dev_stop Demo.idle Demo.batches
           Demo.silence 4).
  - reflexivity.
  - unfold Demo.batches. repeat constructor; simpl; lia.
  - vm_compute. reflexivity.
  - lia.
Defined.

Lemma callback_count_counts_deliveries_witness :
  exists cap1 cap2 out',
    run Demo.dev_start Demo.dev_stop (Start :: deliveries Demo.batches)
        (Some Demo.idle) = Done (Some cap1) /\
    audio_capture_get_callback_count (Some cap1) = 3 /\
    audio_capture_stop Demo.dev_stop (Some cap1) None 0
      = Done (7, Some cap2, out') /\
    audio_capture_get_callback_count (Some cap2) = 3.
Proof.
  apply (callback_count_counts_deliveries
           Demo.dev_start Demo.dev_stop Demo.idle Demo.batches None 0).
  - reflexivity.
  - unfold Demo.batches. repeat constructor; simpl; lia.
  - vm_compute. reflexivity.
  - vm_compute. discriminate.
Defined.

Lemma stop_query_then_fetch_witness :
  exists cap1 cap2 o',
    audio_capture_stop Demo.dev_stop (Some Demo.idle) None 0
      = Done (5, Some cap1, None) /\
    audio_capture_stop Demo.dev_stop (Some cap1) (Some Demo.silence) 5
      = Done (5, Some cap2, Some o') /\
    read o' 0 5 = read Demo.ramp 0 5 /\
    (forall i, i < 0 \/ 5 <= i -> o' i = Demo.silence i).
Proof.
  apply (stop_query_then_fetch Demo.dev_stop Demo.idle Demo.silence 0).
  unfold session_inv. simpl. rewrite MAX_SAMPLES_value. lia.
Defined.

Lemma dropped_batch_then_smaller_batch_accepted_witness :
  exists cap',
    run Demo.dev_start Demo.dev_stop
        [DataAvailable (Some Demo.ramp) 490;
         DataAvailable (Some Demo.ramp) 100] (Some Demo.nearly_full)
      = Done (Some cap') /\
    sample_count cap' = 959520 + 100 /\
    read (buffer cap') 959520 100 = read Demo.ramp 0 100 /\
    (forall i, i < 959520 -> buffer cap' i = Demo.silence i).
Proof.
  apply (dropped_batch_then_smaller_batch_accepted
           Demo.dev_start Demo.dev_stop
           Demo.nearly_full Demo.ramp 490 Demo.ramp 100).
  - unfold session_inv. simpl. rewrite MAX_SAMPLES_value. lia.
  - simpl. discriminate.
  - lia.
  - simpl. unfold UINT32_MOD. rewrite MAX_SAMPLES_value. lia.
  - lia.
  - simpl. rewrite MAX_SAMPLES_value. lia.
Defined.
